(** * CourseFlow: the condition / constraint evaluation engine

    A shallow embedding of [Backend/Models/constraint.py]: the seven
    [Condition] subclasses, their constructors and [check] methods, and
    [Constraint.is_fulfilled], followed by the properties of the
    specification that concern them. *)

From Stdlib Require Import ZArith Floats.
From stdpp Require Import base decidable option list sets gmap strings.

Local Open Scope Z_scope.

(** ** The Python built-ins the module relies on *)

Module Py.
Section Builtins.
Context {A : Type} `{Countable A}.

(** [set(iterable)], on the list of the elements that the iterable
    yields when it is iterated. *)
Definition set (iterable : list A) : gset A := list_to_set iterable.

(** [s.intersection(t)], [s.union(iterable)], [s.issubset(t)]. *)
Definition intersection (s t : gset A) : gset A := s ∩ t.
Definition union (s : gset A) (iterable : list A) : gset A :=
  s ∪ list_to_set iterable.
Definition issubset (s t : gset A) : bool := bool_decide (s ⊆ t).

(** [len(s)] is a Python [int]. *)
Definition len (s : gset A) : Z := Z.of_nat (size s).

(** [bool(s)]: a container is truthy when its length is not zero. *)
Definition truth (s : gset A) : bool := negb (len s =? 0).
End Builtins.

(** [all(xs)]: false at the first falsy element, true when none is. *)
Fixpoint all (xs : list bool) : bool :=
  match xs with
  | [] => true
  | x :: xs' => if x then all xs' else false
  end.

(** [a >= b] on two floats (IEEE 754 binary64; false when either is
    a NaN). *)
Definition float_ge (a b : float) : bool := PrimFloat.leb b a.
End Py.

(** ** The model of the module *)

Section Models.
(** [Unit], [Course] and [Sequence] come from modules of the catalog
    ([Backend.Models.unit], [Backend.Models.course]); all that is used of
    them here is that units are hashable and that [==] on courses and on
    sequences is a decidable equality. *)
Context {Unit : Type} `{Countable Unit}.
Context {Course : Type} `{EqDecision Course}.
Context {Sequence : Type} `{EqDecision Sequence}.

(** The keyword arguments that [Constraint.is_fulfilled] passes to a
    [check], always under these five keys; each unit iterable stands here
    as the list of the units it yields to that call. *)
Record EnrollmentInfo := {
  units_completed : list Unit;
  units_enrolled : list Unit;
  enrolled_course : Course;
  enrolled_sequence : Sequence;
  current_wam : float
}.

(** *** MinimumNumberOfUnitsCondition *)

Record MinimumNumberOfUnitsCondition := {
  set_ : gset Unit;
  min_ : Z
}.

(** A call of a class either returns the new object or raises; [None]
    stands for an exception raised by [__init__]. *)
Definition MinimumNumberOfUnitsCondition_init
    (unit_set : list Unit) (minimum_count : Z)
    : option MinimumNumberOfUnitsCondition :=
  Some {| set_ := Py.set unit_set; min_ := minimum_count |}.

Definition MinimumNumberOfUnitsCondition_check
    (self : MinimumNumberOfUnitsCondition) (units_completed : list Unit)
    : bool :=
  let units_completed := Py.set units_completed in
  min_ self <=? Py.len (Py.intersection (set_ self) units_completed).

(** *** PrerequisitesFulfilledCondition *)

Record PrerequisitesFulfilledCondition := {
  prerequisites : gset Unit
}.

Definition PrerequisitesFulfilledCondition_init
    (prerequisite_units : list Unit)
    : option PrerequisitesFulfilledCondition :=
  Some {| prerequisites := Py.set prerequisite_units |}.

Definition PrerequisitesFulfilledCondition_check
    (self : PrerequisitesFulfilledCondition) (units_completed : list Unit)
    : bool :=
  let units_completed := Py.set units_completed in
  Py.issubset (prerequisites self) units_completed.

(** *** CorequisitesFulfilledCondition *)

Record CorequisitesFulfilledCondition := {
  corequisites : gset Unit
}.

Definition CorequisitesFulfilledCondition_init
    (corequisite_units : list Unit)
    : option CorequisitesFulfilledCondition :=
  Some {| corequisites := Py.set corequisite_units |}.

Definition CorequisitesFulfilledCondition_check
    (self : CorequisitesFulfilledCondition)
    (units_completed units_enrolled : list Unit) : bool :=
  let units_completed_or_enrolled :=
    Py.union (Py.set units_completed) units_enrolled in
  Py.issubset (corequisites self) units_completed_or_enrolled.

(** *** MutualExclusiveUnitsCondition *)

Record MutualExclusiveUnitsCondition := {
  incompatible_units : gset Unit
}.

Definition MutualExclusiveUnitsCondition_init
    (incompatible_units : list Unit)
    : option MutualExclusiveUnitsCondition :=
  Some {| incompatible_units := Py.set incompatible_units |}.

Definition MutualExclusiveUnitsCondition_check
    (self : MutualExclusiveUnitsCondition)
    (units_completed units_enrolled : list Unit) : bool :=
  let units_completed_or_enrolled :=
    Py.union (Py.set units_completed) units_enrolled in
  Py.truth
    (Py.intersection (incompatible_units self) units_completed_or_enrolled).

(** *** EnrolledInSequenceCondition, EnrolledInCourseCondition *)

Record EnrolledInSequenceCondition := {
  sequence : Sequence
}.

Definition EnrolledInSequenceCondition_init (sequence : Sequence)
    : option EnrolledInSequenceCondition :=
  Some {| sequence := sequence |}.

Definition EnrolledInSequenceCondition_check
    (self : EnrolledInSequenceCondition) (enrolled_sequence : Sequence)
    : bool :=
  bool_decide (sequence self = enrolled_sequence).

Record EnrolledInCourseCondition := {
  course : Course
}.

Definition EnrolledInCourseCondition_init (course : Course)
    : option EnrolledInCourseCondition :=
  Some {| course := course |}.

Definition EnrolledInCourseCondition_check
    (self : EnrolledInCourseCondition) (enrolled_course : Course) : bool :=
  bool_decide (course self = enrolled_course).

(** *** MinimumWamCondition *)

Record MinimumWamCondition := {
  minimum_wam : float
}.

Definition MinimumWamCondition_init (minimum_wam : float)
    : option MinimumWamCondition :=
  Some {| minimum_wam := minimum_wam |}.

Definition MinimumWamCondition_check
    (self : MinimumWamCondition) (current_wam : float) : bool :=
  Py.float_ge current_wam (minimum_wam self).

(** *** Condition

    The base class is abstract (its [check] only raises
    [NotImplementedError]); a condition is an instance of one of the seven
    subclasses. *)
Inductive Condition :=
| MinimumNumberOfUnits (c : MinimumNumberOfUnitsCondition)
| PrerequisitesFulfilled (c : PrerequisitesFulfilledCondition)
| CorequisitesFulfilled (c : CorequisitesFulfilledCondition)
| MutualExclusiveUnits (c : MutualExclusiveUnitsCondition)
| EnrolledInSequence (c : EnrolledInSequenceCondition)
| EnrolledInCourse (c : EnrolledInCourseCondition)
| MinimumWam (c : MinimumWamCondition).

(** [condition.check] called with the entries of a dictionary as keyword
    arguments: the method of the object's class runs, each named parameter
    of its signature is bound to the entry under that key, and the other
    entries land in the method's catch-all [kwargs], which no method
    reads. *)
Definition check (condition : Condition) (kwargs : EnrollmentInfo) : bool :=
  match condition with
  | MinimumNumberOfUnits c =>
      MinimumNumberOfUnitsCondition_check c (units_completed kwargs)
  | PrerequisitesFulfilled c =>
      PrerequisitesFulfilledCondition_check c (units_completed kwargs)
  | CorequisitesFulfilled c =>
      CorequisitesFulfilledCondition_check c
        (units_completed kwargs) (units_enrolled kwargs)
  | MutualExclusiveUnits c =>
      MutualExclusiveUnitsCondition_check c
        (units_completed kwargs) (units_enrolled kwargs)
  | EnrolledInSequence c =>
      EnrolledInSequenceCondition_check c (enrolled_sequence kwargs)
  | EnrolledInCourse c =>
      EnrolledInCourseCondition_check c (enrolled_course kwargs)
  | MinimumWam c =>
      MinimumWamCondition_check c (current_wam kwargs)
  end.

(** The keys of [enrollment_info], and the named parameters in the
    signature of each [check]. *)
Inductive key :=
| k_units_completed
| k_units_enrolled
| k_enrolled_course
| k_enrolled_sequence
| k_current_wam.

Definition signature (condition : Condition) : list key :=
  match condition with
  | MinimumNumberOfUnits _ => [k_units_completed]
  | PrerequisitesFulfilled _ => [k_units_completed]
  | CorequisitesFulfilled _ => [k_units_completed; k_units_enrolled]
  | MutualExclusiveUnits _ => [k_units_completed; k_units_enrolled]
  | EnrolledInSequence _ => [k_enrolled_sequence]
  | EnrolledInCourse _ => [k_enrolled_course]
  | MinimumWam _ => [k_current_wam]
  end.

(** Two contexts hold the same value under a key. *)
Definition same_at (k : key) (x y : EnrollmentInfo) : Prop :=
  match k with
  | k_units_completed => units_completed x = units_completed y
  | k_units_enrolled => units_enrolled x = units_enrolled y
  | k_enrolled_course => enrolled_course x = enrolled_course y
  | k_enrolled_sequence => enrolled_sequence x = enrolled_sequence y
  | k_current_wam => current_wam x = current_wam y
  end.

(** *** Constraint *)

Record Constraint := {
  conditions : list Condition
}.

Definition Constraint_init : option Constraint :=
  Some {| conditions := [] |}.

(** *** The unit arguments of [is_fulfilled]

    [units_completed] and [units_enrolled] are annotated [Iterable[Unit]].
    An iterable is here a finite one of either kind: a collection (list,
    tuple, set), which yields its elements each time it is iterated, or an
    iterator (the result of [iter], a generator), which yields what is left
    of it once and is empty from then on. *)
Inductive Iterable :=
| Collection (elements : list Unit)
| Iterator (remaining : list Unit).

(** The units an iterable still has to give. *)
Definition contents (it : Iterable) : list Unit :=
  match it with
  | Collection elements => elements
  | Iterator remaining => remaining
  end.

(** One iteration to the end, as [set(it)] and [s.union(it)] perform it:
    the elements yielded, and the object afterwards. *)
Definition iterate (it : Iterable) : list Unit * Iterable :=
  match it with
  | Collection elements => (elements, Collection elements)
  | Iterator remaining => (remaining, Iterator [])
  end.

(** The objects bound to the two parameters: two objects, or one object
    passed for both. [enrollment_info] holds references to them, and every
    [check] receives the same objects. *)
Inductive UnitArguments :=
| TwoObjects (completed enrolled : Iterable)
| OneObject (both : Iterable).

Definition completed_object (units : UnitArguments) : Iterable :=
  match units with
  | TwoObjects completed _ => completed
  | OneObject both => both
  end.

Definition enrolled_object (units : UnitArguments) : Iterable :=
  match units with
  | TwoObjects _ enrolled => enrolled
  | OneObject both => both
  end.

(** Iterating over the object bound to [units_completed], and over the one
    bound to [units_enrolled]. *)
Definition read_completed (units : UnitArguments)
    : list Unit * UnitArguments :=
  match units with
  | TwoObjects completed enrolled =>
      let '(yielded, completed) := iterate completed in
      (yielded, TwoObjects completed enrolled)
  | OneObject both =>
      let '(yielded, both) := iterate both in (yielded, OneObject both)
  end.

Definition read_enrolled (units : UnitArguments)
    : list Unit * UnitArguments :=
  match units with
  | TwoObjects completed enrolled =>
      let '(yielded, enrolled) := iterate enrolled in
      (yielded, TwoObjects completed enrolled)
  | OneObject both =>
      let '(yielded, both) := iterate both in (yielded, OneObject both)
  end.

(** One call [condition.check] on the objects themselves: the method
    iterates over the parameters it converts with [set] or hands to
    [union], [units_completed] before [units_enrolled], and answers on what
    they yielded. The answer comes with the objects as the call leaves
    them. *)
Definition call_check (condition : Condition) (units : UnitArguments)
    (enrolled_course : Course) (enrolled_sequence : Sequence)
    (current_wam : float) : bool * UnitArguments :=
  match condition with
  | MinimumNumberOfUnits c =>
      let '(units_completed, units) := read_completed units in
      (MinimumNumberOfUnitsCondition_check c units_completed, units)
  | PrerequisitesFulfilled c =>
      let '(units_completed, units) := read_completed units in
      (PrerequisitesFulfilledCondition_check c units_completed, units)
  | CorequisitesFulfilled c =>
      let '(units_completed, units) := read_completed units in
      let '(units_enrolled, units) := read_enrolled units in
      (CorequisitesFulfilledCondition_check c units_completed units_enrolled,
       units)
  | MutualExclusiveUnits c =>
      let '(units_completed, units) := read_completed units in
      let '(units_enrolled, units) := read_enrolled units in
      (MutualExclusiveUnitsCondition_check c units_completed units_enrolled,
       units)
  | EnrolledInSequence c =>
      (EnrolledInSequenceCondition_check c enrolled_sequence, units)
  | EnrolledInCourse c =>
      (EnrolledInCourseCondition_check c enrolled_course, units)
  | MinimumWam c =>
      (MinimumWamCondition_check c current_wam, units)
  end.

(** The list comprehension [[condition.check(...) for condition in
    self.conditions]]: the calls run in the order of the list, each on the
    objects as the call before it left them. *)
Fixpoint checks (conditions : list Condition) (units : UnitArguments)
    (enrolled_course : Course) (enrolled_sequence : Sequence)
    (current_wam : float) : list bool * UnitArguments :=
  match conditions with
  | [] => ([], units)
  | condition :: rest =>
      let '(answer, units) :=
        call_check condition units
          enrolled_course enrolled_sequence current_wam in
      let '(answers, units) :=
        checks rest units enrolled_course enrolled_sequence current_wam in
      (answer :: answers, units)
  end.

(** [is_fulfilled]: the value returned, and the caller's objects as the
    call leaves them. *)
Definition is_fulfilled (self : Constraint) (units : UnitArguments)
    (enrolled_course : Course) (enrolled_sequence : Sequence)
    (current_wam : float) : bool * UnitArguments :=
  let '(answers, units) :=
    checks (conditions self) units
      enrolled_course enrolled_sequence current_wam in
  (Py.all answers, units).

(** The units held by the two arguments, with the other three values: what
    the five keys of [enrollment_info] stand for. *)
Definition contents_info (units : UnitArguments)
    (enrolled_course : Course) (enrolled_sequence : Sequence)
    (current_wam : float) : EnrollmentInfo :=
  {| units_completed := contents (completed_object units);
     units_enrolled := contents (enrolled_object units);
     enrolled_course := enrolled_course;
     enrolled_sequence := enrolled_sequence;
     current_wam := current_wam |}.

(** Both arguments are collections. *)
Definition reiterable (units : UnitArguments) : Prop :=
  match units with
  | TwoObjects (Collection _) (Collection _) => True
  | OneObject (Collection _) => True
  | _ => False
  end.

End Models.


(** ** The rules as the specification words them, on the iterables *)

(** [|R ∩ completed|]: how many distinct units of [R] occur in
    [completed]. *)
Definition distinct_common `{EqDecision A} (R completed : list A) : nat :=
  length (filter (λ u, u ∈ completed) (remove_dups R)).

(** Some unit of [X] is completed or enrolled: the intersection of [X] with
    the union of the two is not empty. *)
Definition incompatible_present {A} (X completed enrolled : list A) : Prop :=
  ∃ u, u ∈ X ∧ (u ∈ completed ∨ u ∈ enrolled).

(** Every unit of [C] is completed or enrolled. *)
Definition all_covered {A} (C completed enrolled : list A) : Prop :=
  ∀ u, u ∈ C → u ∈ completed ∨ u ∈ enrolled.

(** ** A small catalogue for the worked examples *)

Module Example.
Definition A : string := "A".
Definition B : string := "B".
Definition C : string := "C".

(** A student of course ["BSc"], sequence ["CS"], with a WAM of 70. *)
Definition context (completed enrolled : list string)
    : @EnrollmentInfo string string string :=
  {| units_completed := completed;
     units_enrolled := enrolled;
     enrolled_course := "BSc";
     enrolled_sequence := "CS";
     current_wam := 70%float |}.

(** Another student, who shares nothing with the first but what is passed
    in. *)
Definition other_context (completed enrolled : list string)
    : @EnrollmentInfo string string string :=
  {| units_completed := completed;
     units_enrolled := enrolled;
     enrolled_course := "BA";
     enrolled_sequence := "History";
     current_wam := 48.5%float |}.
End Example.

(** ** The base class among the conditions of a constraint

    [Condition] can be instantiated like any class, and nothing keeps such
    an object out of [self.conditions]. The definitions below follow
    [is_fulfilled] over lists that may hold one, with the exception that
    the base method raises. *)

Section BaseClass.
Context {Unit : Type} `{Countable Unit}.
Context {Course : Type} `{EqDecision Course}.
Context {Sequence : Type} `{EqDecision Sequence}.

Inductive exception := NotImplementedError (message : string).

(** [Condition.check], the method the subclasses override. *)
Definition Condition_check (kwargs : @EnrollmentInfo Unit Course Sequence)
    : exception + bool :=
  inl (NotImplementedError "Subclasses should implement this").

(** An element of [self.conditions]: an instance of [Condition] itself, or
    of one of the seven subclasses. *)
Inductive ConditionObject :=
| BaseCondition
| Subclass (condition : @Condition Unit _ _ Course Sequence).

(** Method lookup on the class of the object. The base method raises
    before it touches any argument. *)
Definition check_method (condition : ConditionObject)
    (units : @UnitArguments Unit)
    (enrolled_course : Course) (enrolled_sequence : Sequence)
    (current_wam : float) : (exception + bool) * @UnitArguments Unit :=
  match condition with
  | BaseCondition =>
      (Condition_check
         {| units_completed := contents (completed_object units);
            units_enrolled := contents (enrolled_object units);
            enrolled_course := enrolled_course;
            enrolled_sequence := enrolled_sequence;
            current_wam := current_wam |},
       units)
  | Subclass c =>
      let '(answer, units) :=
        call_check c units enrolled_course enrolled_sequence current_wam in
      (inr answer, units)
  end.

(** The list comprehension of [is_fulfilled]: the checks run in the order
    of the list, and the whole list of answers is built before [all] reads
    any of them; an exception leaves the comprehension at once. *)
Fixpoint comprehension (conditions : list ConditionObject)
    (units : @UnitArguments Unit)
    (enrolled_course : Course) (enrolled_sequence : Sequence)
    (current_wam : float) : (exception + list bool) * @UnitArguments Unit :=
  match conditions with
  | [] => (inr [], units)
  | condition :: rest =>
      match check_method condition units
              enrolled_course enrolled_sequence current_wam with
      | (inl e, units) => (inl e, units)
      | (inr answer, units) =>
          match comprehension rest units
                  enrolled_course enrolled_sequence current_wam with
          | (inl e, units) => (inl e, units)
          | (inr answers, units) => (inr (answer :: answers), units)
          end
      end
  end.

Definition is_fulfilled_objects (conditions : list ConditionObject)
    (units : @UnitArguments Unit)
    (enrolled_course : Course) (enrolled_sequence : Sequence)
    (current_wam : float) : (exception + bool) * @UnitArguments Unit :=
  match comprehension conditions units
          enrolled_course enrolled_sequence current_wam with
  | (inl e, units) => (inl e, units)
  | (inr answers, units) => (inr (Py.all answers), units)
  end.

End BaseClass.

(** ** The built-ins *)

Section BuiltinFacts.
Context {A : Type} `{Countable A}.
Implicit Types (s t : gset A) (l : list A) (u : A).

Lemma elem_of_set l u : u ∈ Py.set l ↔ u ∈ l.
Proof. unfold Py.set. apply elem_of_list_to_set. Qed.

Lemma elem_of_union_iterable s l u : u ∈ Py.union s l ↔ u ∈ s ∨ u ∈ l.
Proof. unfold Py.union. rewrite elem_of_union, elem_of_list_to_set. tauto. Qed.

Lemma issubset_true s t : Py.issubset s t = true ↔ ∀ u, u ∈ s → u ∈ t.
Proof.
  unfold Py.issubset. rewrite bool_decide_eq_true. apply elem_of_subseteq.
Qed.

Lemma len_nonneg s : 0 ≤ Py.len s.
Proof. unfold Py.len. lia. Qed.

Lemma truth_true s : Py.truth s = true ↔ ∃ u, u ∈ s.
Proof.
  unfold Py.truth, Py.len. rewrite negb_true_iff, Z.eqb_neq. split.
  - intros Hsize. apply size_pos_elem_of. lia.
  - intros [u Hu] Hsize.
    assert (size s = 0%nat) as Hzero by lia.
    apply size_empty_iff in Hzero. set_solver.
Qed.

Lemma truth_nonempty s : Py.truth s = true ↔ s ≠ ∅.
Proof.
  rewrite truth_true. split.
  - intros [u Hu] ->. set_solver.
  - apply set_choose_L.
Qed.

(** The intersection of two sets built from lists, as a list without
    duplicates. *)
Lemma intersection_of_sets l1 l2 :
  Py.intersection (Py.set l1) (Py.set l2)
  = list_to_set (filter (λ u, u ∈ l2) (remove_dups l1)).
Proof.
  unfold Py.intersection, Py.set. apply set_eq. intros u.
  rewrite elem_of_intersection, !elem_of_list_to_set.
  rewrite list_elem_of_filter, elem_of_remove_dups. tauto.
Qed.

Lemma len_intersection_of_sets l1 l2 :
  Py.len (Py.intersection (Py.set l1) (Py.set l2))
  = Z.of_nat (distinct_common l1 l2).
Proof.
  rewrite intersection_of_sets. unfold Py.len, distinct_common.
  f_equal. apply size_list_to_set.
  apply NoDup_filter, NoDup_remove_dups.
Qed.

(** [set] forgets how often, and where, an element occurs. *)
Lemma set_remove_dups l : Py.set (remove_dups l) = Py.set l.
Proof.
  unfold Py.set. apply set_eq. intros u.
  by rewrite !elem_of_list_to_set, elem_of_remove_dups.
Qed.
End BuiltinFacts.

Lemma all_foldr (xs : list bool) : Py.all xs = foldr andb true xs.
Proof. induction xs as [|[] xs IH]; simpl; auto. Qed.

Lemma all_true (xs : list bool) : Py.all xs = true ↔ Forall (λ x, x = true) xs.
Proof.
  induction xs as [|x xs IH]; simpl.
  - split; auto.
  - rewrite Forall_cons. destruct x; [tauto|]. split; [done|]. by intros [? _].
Qed.

Lemma all_Permutation (xs ys : list bool) : xs ≡ₚ ys → Py.all xs = Py.all ys.
Proof.
  induction 1 as [|x xs ys _ IH|x y xs|xs ys zs _ IH1 _ IH2]; simpl.
  - reflexivity.
  - by rewrite IH.
  - by destruct x, y.
  - congruence.
Qed.

(** ** The conditions *)

Section ConditionFacts.
Context {Unit : Type} `{Countable Unit}.
Context {Course : Type} `{EqDecision Course}.
Context {Sequence : Type} `{EqDecision Sequence}.

Abbreviation Info := (@EnrollmentInfo Unit Course Sequence).
Abbreviation Cond := (@Condition Unit _ _ Course Sequence).

Implicit Types (info : Info) (completed enrolled : list Unit).

Lemma MinimumNumberOfUnitsCondition_check_true
    (self : MinimumNumberOfUnitsCondition) completed :
  MinimumNumberOfUnitsCondition_check self completed = true
  ↔ min_ self ≤ Z.of_nat (size (set_ self ∩ list_to_set completed)).
Proof.
  unfold MinimumNumberOfUnitsCondition_check. apply Z.leb_le.
Qed.

Lemma CorequisitesFulfilledCondition_check_true
    (self : CorequisitesFulfilledCondition) completed enrolled :
  CorequisitesFulfilledCondition_check self completed enrolled = true
  ↔ ∀ u, u ∈ corequisites self → u ∈ completed ∨ u ∈ enrolled.
Proof.
  unfold CorequisitesFulfilledCondition_check. rewrite issubset_true.
  apply forall_proper. intros u.
  by rewrite elem_of_union_iterable, elem_of_set.
Qed.

Lemma MutualExclusiveUnitsCondition_check_true
    (self : MutualExclusiveUnitsCondition) completed enrolled :
  MutualExclusiveUnitsCondition_check self completed enrolled = true
  ↔ ∃ u, u ∈ incompatible_units self ∧ (u ∈ completed ∨ u ∈ enrolled).
Proof.
  unfold MutualExclusiveUnitsCondition_check, Py.intersection.
  rewrite truth_true. apply exist_proper. intros u.
  by rewrite elem_of_intersection, elem_of_union_iterable, elem_of_set.
Qed.

(** C2. [MutualExclusiveUnitsCondition.check] is true exactly when the
    reference set [X] meets the union of the completed and the enrolled
    units, that is when some unit of [X] is completed or enrolled: it
    signals the violation. With [X = {A}] it is true on [completed = {A}],
    [enrolled = {}] and false when both are empty. *)
Theorem mutual_exclusion_signals_violation :
  (∀ (X : list Unit) info,
     ∃ c, MutualExclusiveUnitsCondition_init X = Some c
       ∧ (check (MutualExclusiveUnits c) info = true
          ↔ list_to_set X
              ∩ (list_to_set (units_completed info)
                 ∪ list_to_set (units_enrolled info)) ≠@{gset Unit} ∅)
       ∧ (check (MutualExclusiveUnits c) info = true
          ↔ incompatible_present X
              (units_completed info) (units_enrolled info)))
  ∧ (λ c, check (MutualExclusiveUnits c) (Example.context [Example.A] []))
      <$> MutualExclusiveUnitsCondition_init [Example.A] = Some true
  ∧ (λ c, check (MutualExclusiveUnits c) (Example.context [] []))
      <$> MutualExclusiveUnitsCondition_init [Example.A] = Some false.
Proof.
  split; [|split; reflexivity].
  intros X info. eexists. split; [reflexivity|]. split.
  - simpl. unfold MutualExclusiveUnitsCondition_check. simpl.
    apply truth_nonempty.
  - simpl. rewrite MutualExclusiveUnitsCondition_check_true. simpl.
    unfold incompatible_present. apply exist_proper. intros u.
    by rewrite elem_of_set.
Qed.

(** C1. The class documents the condition as fulfilled when none of the
    units of [X] is completed or enrolled. The method answers the other way
    round: with [X = {A}] it is true for a student who completed [A], and
    false for a student with no unit at all. *)
Theorem mutual_exclusion_fulfilled_on_incompatible_unit :
  (incompatible_present [Example.A] [Example.A] []
   ∧ (λ c, check (MutualExclusiveUnits c) (Example.context [Example.A] []))
       <$> MutualExclusiveUnitsCondition_init [Example.A] = Some true)
  ∧ (¬ incompatible_present [Example.A] [] []
     ∧ (λ c, check (MutualExclusiveUnits c) (Example.context [] []))
         <$> MutualExclusiveUnitsCondition_init [Example.A] = Some false).
Proof.
  split; (split; [|reflexivity]).
  - exists Example.A. split; [|left]; apply list_elem_of_here.
  - intros (u & _ & [Hu|Hu]); by apply not_elem_of_nil in Hu.
Qed.

(** C7. [MinimumNumberOfUnitsCondition(R, k).check] is true exactly when at
    least [k] units lie in the intersection of [R] with the completed
    units; [MinimumUnitCount({A,B,C}, 2)] is true on [completed = {A,B}]
    and false on [completed = {A}]. *)
Theorem minimum_units_counts_completed :
  (∀ (R : list Unit) (k : Z) info,
     ∃ c, MinimumNumberOfUnitsCondition_init R k = Some c
       ∧ (check (MinimumNumberOfUnits c) info = true
          ↔ k ≤ Z.of_nat
                  (size (list_to_set R ∩ list_to_set (units_completed info)
                         : gset Unit)))
       ∧ (check (MinimumNumberOfUnits c) info = true
          ↔ k ≤ Z.of_nat (distinct_common R (units_completed info))))
  ∧ (λ c, check (MinimumNumberOfUnits c)
            (Example.context [Example.A; Example.B] []))
      <$> MinimumNumberOfUnitsCondition_init
            [Example.A; Example.B; Example.C] 2 = Some true
  ∧ (λ c, check (MinimumNumberOfUnits c) (Example.context [Example.A] []))
      <$> MinimumNumberOfUnitsCondition_init
            [Example.A; Example.B; Example.C] 2 = Some false.
Proof.
  split; [|split; reflexivity].
  intros R k info. eexists. split; [reflexivity|]. split.
  - simpl. by rewrite MinimumNumberOfUnitsCondition_check_true.
  - simpl. unfold MinimumNumberOfUnitsCondition_check. simpl.
    rewrite len_intersection_of_sets. apply Z.leb_le.
Qed.

(** C10. A [MinimumNumberOfUnitsCondition] whose [minimum_count] is zero or
    negative is fulfilled whatever the completed units are. *)
Theorem nonpositive_minimum_always_fulfilled
    (R : list Unit) (k : Z) info :
  k ≤ 0 →
  ∃ c, MinimumNumberOfUnitsCondition_init R k = Some c
     ∧ check (MinimumNumberOfUnits c) info = true.
Proof.
  intros Hk. eexists. split; [reflexivity|]. simpl.
  apply MinimumNumberOfUnitsCondition_check_true. simpl. lia.
Qed.

(** C8. [CorequisitesFulfilledCondition.check] is true exactly when the
    reference set [C] is included in the union of the completed and the
    enrolled units. A unit counts the same in either of the two: exchanging
    them does not change the answer, and [CorequisitesFulfilled({A})] is
    true both for a student enrolled in [A] and for one who completed it. *)
Theorem corequisites_completed_or_enrolled :
  (∀ (C : list Unit) completed enrolled
     (crs : Course) (sq : Sequence) (wam : float),
     ∃ c, CorequisitesFulfilledCondition_init C = Some c
       ∧ (check (CorequisitesFulfilled c)
            (Build_EnrollmentInfo completed enrolled crs sq wam) = true
          ↔ list_to_set C
              ⊆@{gset Unit} list_to_set completed ∪ list_to_set enrolled)
       ∧ (check (CorequisitesFulfilled c)
            (Build_EnrollmentInfo completed enrolled crs sq wam) = true
          ↔ all_covered C completed enrolled)
       ∧ check (CorequisitesFulfilled c)
           (Build_EnrollmentInfo completed enrolled crs sq wam)
         = check (CorequisitesFulfilled c)
             (Build_EnrollmentInfo enrolled completed crs sq wam))
  ∧ (λ c, check (CorequisitesFulfilled c) (Example.context [] [Example.A]))
      <$> CorequisitesFulfilledCondition_init [Example.A] = Some true
  ∧ (λ c, check (CorequisitesFulfilled c) (Example.context [Example.A] []))
      <$> CorequisitesFulfilledCondition_init [Example.A] = Some true.
Proof.
  split; [|split; reflexivity].
  intros C completed enrolled crs sq wam.
  eexists. split; [reflexivity|]. split; [|split].
  - simpl. unfold CorequisitesFulfilledCondition_check. simpl.
    apply bool_decide_eq_true.
  - simpl. rewrite CorequisitesFulfilledCondition_check_true. simpl.
    unfold all_covered. apply forall_proper. intros u.
    by rewrite elem_of_set.
  - simpl. apply eq_true_iff_eq.
    rewrite !CorequisitesFulfilledCondition_check_true.
    apply forall_proper. intros u. tauto.
Qed.

(** C9. For the four conditions with a set-valued parameter, an iterable
    with repeated entries and the same iterable without the repetitions
    give the same condition object, hence the same answer on every
    context. *)
Theorem duplicates_in_reference_set_ignored (l : list Unit) (k : Z) :
  (∃ c c', MinimumNumberOfUnitsCondition_init l k = Some c
         ∧ MinimumNumberOfUnitsCondition_init (remove_dups l) k = Some c'
         ∧ c = c'
         ∧ ∀ info, check (MinimumNumberOfUnits c) info
                   = check (MinimumNumberOfUnits c') info)
  ∧ (∃ c c', PrerequisitesFulfilledCondition_init l = Some c
           ∧ PrerequisitesFulfilledCondition_init (remove_dups l) = Some c'
           ∧ c = c'
           ∧ ∀ info, check (PrerequisitesFulfilled c) info
                     = check (PrerequisitesFulfilled c') info)
  ∧ (∃ c c', CorequisitesFulfilledCondition_init l = Some c
           ∧ CorequisitesFulfilledCondition_init (remove_dups l) = Some c'
           ∧ c = c'
           ∧ ∀ info, check (CorequisitesFulfilled c) info
                     = check (CorequisitesFulfilled c') info)
  ∧ (∃ c c', MutualExclusiveUnitsCondition_init l = Some c
           ∧ MutualExclusiveUnitsCondition_init (remove_dups l) = Some c'
           ∧ c = c'
           ∧ ∀ info, check (MutualExclusiveUnits c) info
                     = check (MutualExclusiveUnits c') info).
Proof.
  repeat split;
    (do 2 eexists; split; [reflexivity|]; split; [reflexivity|];
     rewrite set_remove_dups; split; [reflexivity|done]).
Qed.

(** C3, as the code has it. No constructor checks its parameters:
    construction always succeeds, and [MinimumNumberOfUnitsCondition]
    stores the [minimum_count] it is given, whatever its sign, next to the
    set of the units. *)
Theorem construction_accepts_every_parameter :
  (∀ (unit_set : list Unit) (minimum_count : Z),
     MinimumNumberOfUnitsCondition_init unit_set minimum_count
     = Some {| set_ := list_to_set unit_set; min_ := minimum_count |})
  ∧ (∀ l : list Unit, is_Some (PrerequisitesFulfilledCondition_init l))
  ∧ (∀ l : list Unit, is_Some (CorequisitesFulfilledCondition_init l))
  ∧ (∀ l : list Unit, is_Some (MutualExclusiveUnitsCondition_init l))
  ∧ (∀ sq : Sequence, is_Some (EnrolledInSequenceCondition_init sq))
  ∧ (∀ crs : Course, is_Some (EnrolledInCourseCondition_init crs))
  ∧ (∀ wam : float, is_Some (MinimumWamCondition_init wam)).
Proof. repeat split; intros; eexists; reflexivity. Qed.

(** C6. A [check] reads nothing but the named parameters of its signature:
    on two contexts that hold the same values under those keys it answers
    the same, whatever the other entries are. So the answer of
    [MinimumNumberOfUnitsCondition] depends on [units_completed] only, and
    that of [MinimumWamCondition] on [current_wam] only. *)
Theorem check_reads_its_signature_only :
  (∀ (condition : Cond) (x y : Info),
     (∀ k, k ∈ signature condition → same_at k x y) →
     check condition x = check condition y)
  ∧ (∀ (c : MinimumNumberOfUnitsCondition) (x y : Info),
       units_completed x = units_completed y →
       check (MinimumNumberOfUnits c) x = check (MinimumNumberOfUnits c) y)
  ∧ (∀ (c : MinimumWamCondition) (x y : Info),
       current_wam x = current_wam y →
       check (MinimumWam c) x = check (MinimumWam c) y).
Proof.
  assert (∀ (condition : Cond) (x y : Info),
            (∀ k, k ∈ signature condition → same_at k x y) →
            check condition x = check condition y) as Hmain.
  { intros condition x y Hsame.
    destruct condition as [c|c|c|c|c|c|c]; simpl in *.
    - by rewrite (Hsame k_units_completed (list_elem_of_here _ _)).
    - by rewrite (Hsame k_units_completed (list_elem_of_here _ _)).
    - rewrite (Hsame k_units_completed (list_elem_of_here _ _)).
      by rewrite (Hsame k_units_enrolled
                    (list_elem_of_further _ _ _ (list_elem_of_here _ _))).
    - rewrite (Hsame k_units_completed (list_elem_of_here _ _)).
      by rewrite (Hsame k_units_enrolled
                    (list_elem_of_further _ _ _ (list_elem_of_here _ _))).
    - by rewrite (Hsame k_enrolled_sequence (list_elem_of_here _ _)).
    - by rewrite (Hsame k_enrolled_course (list_elem_of_here _ _)).
    - by rewrite (Hsame k_current_wam (list_elem_of_here _ _)). }
  split; [exact Hmain|]. split.
  - intros c x y Heq. apply Hmain. simpl. intros k Hk.
    apply list_elem_of_singleton in Hk as ->. exact Heq.
  - intros c x y Heq. apply Hmain. simpl. intros k Hk.
    apply list_elem_of_singleton in Hk as ->. exact Heq.
Qed.

End ConditionFacts.

(** ** The constraint *)

Section ConstraintFacts.
Context {Unit : Type} `{Countable Unit}.
Context {Course : Type} `{EqDecision Course}.
Context {Sequence : Type} `{EqDecision Sequence}.

Abbreviation Cstr := (@Constraint Unit _ _ Course Sequence).

Implicit Types (self other : Cstr) (units : @UnitArguments Unit).
Implicit Types (condition : @Condition Unit _ _ Course Sequence).
Implicit Types (crs : Course) (sq : Sequence) (wam : float).

(** On collections a read yields the elements and changes nothing. *)
Lemma read_completed_reiterable units :
  reiterable units →
  read_completed units = (contents (completed_object units), units).
Proof. by destruct units as [[?|?] [?|?]|[?|?]]. Qed.

Lemma read_enrolled_reiterable units :
  reiterable units →
  read_enrolled units = (contents (enrolled_object units), units).
Proof. by destruct units as [[?|?] [?|?]|[?|?]]. Qed.

Lemma call_check_reiterable condition units crs sq wam :
  reiterable units →
  call_check condition units crs sq wam
  = (check condition (contents_info units crs sq wam), units).
Proof.
  intros Hcollections.
  destruct condition as [c|c|c|c|c|c|c]; simpl;
    rewrite ?(read_completed_reiterable _ Hcollections),
      ?(read_enrolled_reiterable _ Hcollections); reflexivity.
Qed.

Lemma checks_reiterable (cs : list (@Condition Unit _ _ Course Sequence))
    units crs sq wam :
  reiterable units →
  checks cs units crs sq wam
  = (map (λ condition, check condition (contents_info units crs sq wam)) cs,
     units).
Proof.
  intros Hcollections. induction cs as [|c cs IH]; simpl; [done|].
  by rewrite (call_check_reiterable _ _ _ _ _ Hcollections), IH.
Qed.

Lemma is_fulfilled_reiterable self units crs sq wam :
  reiterable units →
  is_fulfilled self units crs sq wam
  = (Py.all (map (λ condition,
                    check condition (contents_info units crs sq wam))
               (conditions self)),
     units).
Proof.
  intros Hcollections. unfold is_fulfilled.
  by rewrite (checks_reiterable _ _ _ _ _ Hcollections).
Qed.

(** C4, as the code has it. When the two unit arguments are collections,
    [is_fulfilled] is the conjunction of the answers of the conditions of
    the constraint, each checked on the one context made of the units of
    the arguments: it is true exactly when every condition is, and a
    constraint holding the same conditions in another order answers the
    same. *)
Theorem is_fulfilled_is_conjunction self units crs sq wam :
  reiterable units →
  (is_fulfilled self units crs sq wam).1
  = foldr andb true
      (map (λ condition, check condition (contents_info units crs sq wam))
           (conditions self))
  ∧ ((is_fulfilled self units crs sq wam).1 = true
     ↔ ∀ condition, condition ∈ conditions self →
         check condition (contents_info units crs sq wam) = true)
  ∧ (∀ other, conditions other ≡ₚ conditions self →
       (is_fulfilled other units crs sq wam).1
       = (is_fulfilled self units crs sq wam).1).
Proof.
  intros Hcollections. split; [|split].
  - rewrite (is_fulfilled_reiterable _ _ _ _ _ Hcollections). simpl.
    apply all_foldr.
  - rewrite (is_fulfilled_reiterable _ _ _ _ _ Hcollections). simpl.
    rewrite all_true, Forall_forall. split.
    + intros Hall c Hc. apply Hall, list_elem_of_In, in_map_iff.
      exists c. split; [done|]. by apply list_elem_of_In.
    + intros Hall b Hb.
      apply list_elem_of_In, in_map_iff in Hb as (c & <- & Hc).
      by apply Hall, list_elem_of_In.
  - intros other Hperm.
    rewrite !(is_fulfilled_reiterable _ _ _ _ _ Hcollections). simpl.
    apply all_Permutation. by apply Permutation_map.
Qed.

(** C5. A constraint with no condition is fulfilled on every context. *)
Theorem empty_constraint_is_fulfilled self units crs sq wam :
  conditions self = [] →
  (is_fulfilled self units crs sq wam).1 = true.
Proof. unfold is_fulfilled. by intros ->. Qed.

End ConstraintFacts.

(** ** The statements above at the catalogue of the examples *)

(** A student enrolled in [B] trips the exclusion of [{A, B}]. *)
Lemma mutual_exclusion_signals_violation_witness :
  ∃ c, MutualExclusiveUnitsCondition_init [Example.A; Example.B] = Some c
     ∧ check (MutualExclusiveUnits c)
         (Example.context [Example.C] [Example.B]) = true.
Proof.
  destruct (proj1 (mutual_exclusion_signals_violation
                     (Course:=string) (Sequence:=string))
              [Example.A; Example.B]
              (Example.context [Example.C] [Example.B]))
    as (c & Hc & _ & Hiff).
  exists c. split; [exact Hc|]. apply Hiff.
  exists Example.B. split.
  - apply list_elem_of_further, list_elem_of_here.
  - right. apply list_elem_of_here.
Defined.

(** A threshold of [-1] is met by a student with no completed unit. *)
Lemma nonpositive_minimum_always_fulfilled_witness :
  -1 ≤ 0
  ∧ ∃ c, MinimumNumberOfUnitsCondition_init [Example.A] (-1) = Some c
       ∧ check (MinimumNumberOfUnits c) (Example.context [] []) = true.
Proof.
  split; [lia|].
  apply (nonpositive_minimum_always_fulfilled
           [Example.A] (-1) (Example.context [] [])).
  lia.
Defined.

(** C3, as the specification has it, fails: a negative threshold is
    accepted. *)
Lemma negative_minimum_count_accepted :
  -1 < 0 ∧ MinimumNumberOfUnitsCondition_init [Example.A; Example.B] (-1) ≠ None.
Proof. split; [lia|discriminate]. Qed.

(** Two students with the same completed units and nothing else in common
    get the same answer from a [MinimumNumberOfUnitsCondition]. *)
Lemma check_reads_its_signature_only_witness :
  check (MinimumNumberOfUnits {| set_ := {[ Example.A ]}; min_ := 1 |})
    (Example.context [Example.A] [Example.B])
  = check (MinimumNumberOfUnits {| set_ := {[ Example.A ]}; min_ := 1 |})
      (Example.other_context [Example.A] []).
Proof.
  apply (proj1 check_reads_its_signature_only). simpl.
  intros k Hk. apply list_elem_of_singleton in Hk as ->. reflexivity.
Defined.

(** The constraint [[PrerequisitesFulfilled({A}), MinimumWam(65.0)]] and the
    one listing the two conditions the other way round agree on the list
    [[A]]. *)
Lemma is_fulfilled_is_conjunction_witness :
  (is_fulfilled
     {| conditions :=
          [MinimumWam {| minimum_wam := 65 |};
           PrerequisitesFulfilled {| prerequisites := {[ Example.A ]} |}] |}
     (TwoObjects (Collection [Example.A]) (Collection [])) "BSc" "CS" 70).1
  = (is_fulfilled
       {| conditions :=
            [PrerequisitesFulfilled {| prerequisites := {[ Example.A ]} |};
             MinimumWam {| minimum_wam := 65 |}] |}
       (TwoObjects (Collection [Example.A]) (Collection [])) "BSc" "CS" 70).1.
Proof.
  apply (proj2 (proj2 (is_fulfilled_is_conjunction
                         _ (TwoObjects (Collection [Example.A])
                                       (Collection []))
                         "BSc" "CS" 70 I))).
  simpl. apply perm_swap.
Defined.

(** C4, as the specification has it, fails when [units_completed] is an
    iterator over [A]. The conditions [PrerequisitesFulfilled([])] and
    [PrerequisitesFulfilled([A])] are both true of a student who completed
    [A]; the constraint listing them in this order is not fulfilled, the
    one listing them the other way round is, and the constraint holding the
    second condition twice is not. *)
Lemma is_fulfilled_not_conjunction_on_iterator :
  check (PrerequisitesFulfilled {| prerequisites := Py.set [] |})
    (Example.context [Example.A] []) = true
  ∧ check (PrerequisitesFulfilled {| prerequisites := Py.set [Example.A] |})
      (Example.context [Example.A] []) = true
  ∧ (is_fulfilled
       {| conditions :=
            [PrerequisitesFulfilled {| prerequisites := Py.set [] |};
             PrerequisitesFulfilled
               {| prerequisites := Py.set [Example.A] |}] |}
       (TwoObjects (Iterator [Example.A]) (Collection []))
       "BSc" "CS" 70).1 = false
  ∧ (is_fulfilled
       {| conditions :=
            [PrerequisitesFulfilled
               {| prerequisites := Py.set [Example.A] |};
             PrerequisitesFulfilled {| prerequisites := Py.set [] |}] |}
       (TwoObjects (Iterator [Example.A]) (Collection []))
       "BSc" "CS" 70).1 = true
  ∧ (is_fulfilled
       {| conditions :=
            [PrerequisitesFulfilled
               {| prerequisites := Py.set [Example.A] |};
             PrerequisitesFulfilled
               {| prerequisites := Py.set [Example.A] |}] |}
       (TwoObjects (Iterator [Example.A]) (Collection []))
       "BSc" "CS" 70).1 = false.
Proof. repeat split; reflexivity. Qed.

(** The constraint that [Constraint()] returns is fulfilled. *)
Lemma empty_constraint_is_fulfilled_witness :
  (λ self,
     (is_fulfilled self
        (TwoObjects (Collection [Example.A]) (Iterator [Example.B]))
        "BSc" "CS" 70).1)
    <$> Constraint_init = Some true.
Proof.
  exact (f_equal Some
           (empty_constraint_is_fulfilled
              {| conditions := [] |}
              (TwoObjects (Collection [Example.A]) (Iterator [Example.B]))
              "BSc" "CS" 70 eq_refl)).
Defined.

(** ** Further properties of the conditions *)

Section MoreConditionFacts.
Context {Unit : Type} `{Countable Unit}.
Context {Course : Type} `{EqDecision Course}.
Context {Sequence : Type} `{EqDecision Sequence}.

Implicit Types (info : @EnrollmentInfo Unit Course Sequence).
Implicit Types (completed enrolled : list Unit).

Lemma PrerequisitesFulfilledCondition_check_true
    (self : PrerequisitesFulfilledCondition) completed :
  PrerequisitesFulfilledCondition_check self completed = true
  ↔ ∀ u, u ∈ prerequisites self → u ∈ completed.
Proof.
  unfold PrerequisitesFulfilledCondition_check. rewrite issubset_true.
  apply forall_proper. intros u. by rewrite elem_of_set.
Qed.

Lemma size_set_remove_dups (l : list Unit) :
  size (Py.set l) = length (remove_dups l).
Proof.
  rewrite <- set_remove_dups. unfold Py.set.
  apply size_list_to_set, NoDup_remove_dups.
Qed.

(** X1. [PrerequisitesFulfilledCondition.check] is true exactly when every
    unit of the prerequisite list occurs among the completed units; the
    enrolled units play no part, so a prerequisite the student is only
    enrolled in leaves the condition unfulfilled, and an empty list of
    prerequisites is always fulfilled. *)
Theorem prerequisites_need_completion :
  (∀ (P : list Unit) info,
     ∃ c, PrerequisitesFulfilledCondition_init P = Some c
       ∧ (check (PrerequisitesFulfilled c) info = true
          ↔ ∀ u, u ∈ P → u ∈ units_completed info))
  ∧ (∀ (u : Unit) (P : list Unit) info,
       u ∈ P → u ∉ units_completed info →
       (λ c, check (PrerequisitesFulfilled c) info)
         <$> PrerequisitesFulfilledCondition_init P = Some false)
  ∧ (∀ info,
       (λ c, check (PrerequisitesFulfilled c) info)
         <$> PrerequisitesFulfilledCondition_init [] = Some true).
Proof.
  assert (∀ (P : list Unit) info,
            check (PrerequisitesFulfilled {| prerequisites := Py.set P |})
              info = true
            ↔ ∀ u, u ∈ P → u ∈ units_completed info) as Hiff.
  { intros P info. simpl. rewrite PrerequisitesFulfilledCondition_check_true.
    simpl. apply forall_proper. intros u. by rewrite elem_of_set. }
  split; [|split].
  - intros P info. eexists. split; [reflexivity|]. apply Hiff.
  - intros u P info HP Hcompleted. simpl. f_equal.
    apply not_true_is_false. intros Htrue.
    exact (Hcompleted (proj1 (Hiff P info) Htrue u HP)).
  - intros info. simpl. f_equal. apply (proj2 (Hiff [] info)).
    intros u Hu. by apply not_elem_of_nil in Hu.
Qed.

(** X2. Over the same list of units, a fulfilled
    [PrerequisitesFulfilledCondition] makes the
    [CorequisitesFulfilledCondition] fulfilled too, and for a student with
    no enrolled unit the two conditions answer the same. *)
Theorem prerequisites_imply_corequisites
    (L : list Unit) (p : PrerequisitesFulfilledCondition)
    (c : CorequisitesFulfilledCondition) info :
  PrerequisitesFulfilledCondition_init L = Some p →
  CorequisitesFulfilledCondition_init L = Some c →
  (check (PrerequisitesFulfilled p) info = true →
   check (CorequisitesFulfilled c) info = true)
  ∧ (units_enrolled info = [] →
     check (PrerequisitesFulfilled p) info
     = check (CorequisitesFulfilled c) info).
Proof.
  intros [= <-] [= <-]. simpl. split.
  - rewrite PrerequisitesFulfilledCondition_check_true,
      CorequisitesFulfilledCondition_check_true. simpl.
    intros Hall u Hu. left. by apply Hall.
  - intros Hnone. apply eq_true_iff_eq.
    rewrite PrerequisitesFulfilledCondition_check_true,
      CorequisitesFulfilledCondition_check_true. simpl. rewrite Hnone.
    apply forall_proper. intros u. split.
    + intros Hu Hin. left. by apply Hu.
    + intros Hu Hin. destruct (Hu Hin) as [?|Hnil]; [done|].
      by apply not_elem_of_nil in Hnil.
Qed.

(** X3. Asking for as many units as the reference list has distinct
    entries is asking for all of them: [MinimumNumberOfUnitsCondition(R,
    n)] with [n] the number of distinct units of [R] answers as
    [PrerequisitesFulfilledCondition(R)] does, on every context. *)
Theorem minimum_of_all_units_is_prerequisites (R : list Unit) info :
  ∃ m p,
    MinimumNumberOfUnitsCondition_init R (Z.of_nat (length (remove_dups R)))
    = Some m
    ∧ PrerequisitesFulfilledCondition_init R = Some p
    ∧ check (MinimumNumberOfUnits m) info
      = check (PrerequisitesFulfilled p) info.
Proof.
  do 2 eexists. split; [reflexivity|]. split; [reflexivity|]. simpl.
  apply eq_true_iff_eq.
  rewrite MinimumNumberOfUnitsCondition_check_true. simpl.
  unfold PrerequisitesFulfilledCondition_check, Py.issubset. simpl.
  rewrite bool_decide_eq_true, <- size_set_remove_dups. unfold Py.set.
  split.
  - intros Hsize. apply subseteq_intersection_2_L.
    apply set_subseteq_size_eq; [|lia].
    apply intersection_subseteq_l.
  - intros Hsub. apply subseteq_intersection_1_L in Hsub.
    rewrite Hsub. lia.
Qed.

(** X4. A threshold above the number of distinct units of the reference
    list can never be met, whatever the student completed. *)
Theorem minimum_above_reference_never_fulfilled
    (R : list Unit) (k : Z) (m : MinimumNumberOfUnitsCondition) info :
  MinimumNumberOfUnitsCondition_init R k = Some m →
  Z.of_nat (length (remove_dups R)) < k →
  check (MinimumNumberOfUnits m) info = false.
Proof.
  intros [= <-] Hk. simpl. apply not_true_is_false.
  rewrite MinimumNumberOfUnitsCondition_check_true. simpl.
  rewrite <- size_set_remove_dups in Hk.
  pose proof (subseteq_size
                (Py.set R ∩ list_to_set (units_completed info)) (Py.set R)
                (intersection_subseteq_l _ _)).
  lia.
Qed.

(** X5. For a single unit the exclusion and the corequisite are the same
    test: [MutualExclusiveUnitsCondition([u])] and
    [CorequisitesFulfilledCondition([u])] answer alike on every context,
    both true exactly when [u] is completed or enrolled. *)
Theorem single_exclusion_is_single_corequisite (u : Unit) info :
  ∃ x c,
    MutualExclusiveUnitsCondition_init [u] = Some x
    ∧ CorequisitesFulfilledCondition_init [u] = Some c
    ∧ check (MutualExclusiveUnits x) info
      = check (CorequisitesFulfilled c) info
    ∧ (check (MutualExclusiveUnits x) info = true
       ↔ u ∈ units_completed info ∨ u ∈ units_enrolled info).
Proof.
  do 2 eexists. split; [reflexivity|]. split; [reflexivity|]. simpl.
  assert (MutualExclusiveUnitsCondition_check
            {| incompatible_units := Py.set [u] |}
            (units_completed info) (units_enrolled info) = true
          ↔ u ∈ units_completed info ∨ u ∈ units_enrolled info) as Hx.
  { rewrite MutualExclusiveUnitsCondition_check_true. simpl. split.
    - intros (v & Hv & Hin). apply elem_of_set, list_elem_of_singleton in Hv.
      by subst v.
    - intros Hin. exists u. split; [|done].
      apply elem_of_set, list_elem_of_here. }
  split; [|exact Hx].
  apply eq_true_iff_eq. rewrite Hx.
  rewrite CorequisitesFulfilledCondition_check_true. simpl. split.
  - intros Hin v Hv. apply elem_of_set, list_elem_of_singleton in Hv.
    by subst v.
  - intros Hall. apply Hall, elem_of_set, list_elem_of_here.
Qed.

End MoreConditionFacts.

(** ** Further properties of the constraint *)

Section MoreConstraintFacts.
Context {Unit : Type} `{Countable Unit}.
Context {Course : Type} `{EqDecision Course}.
Context {Sequence : Type} `{EqDecision Sequence}.

Implicit Types (self other : @Constraint Unit _ _ Course Sequence).
Implicit Types (condition : @Condition Unit _ _ Course Sequence).
Implicit Types (units : @UnitArguments Unit).
Implicit Types (completed enrolled : list Unit).
Implicit Types (crs : Course) (sq : Sequence) (wam : float).

Lemma set_subseteq_lists (l l' : list Unit) : l ⊆ l' → Py.set l ⊆ Py.set l'.
Proof. intros Hsub u. rewrite !elem_of_set. apply Hsub. Qed.

Lemma check_more_units condition completed completed' enrolled enrolled'
    crs sq wam :
  completed ⊆ completed' → enrolled ⊆ enrolled' →
  check condition (Build_EnrollmentInfo completed enrolled crs sq wam) = true →
  check condition (Build_EnrollmentInfo completed' enrolled' crs sq wam)
  = true.
Proof.
  intros Hcompleted Henrolled.
  destruct condition as [c|c|c|c|c|c|c]; simpl; try done.
  - rewrite !MinimumNumberOfUnitsCondition_check_true. intros Hmin.
    assert (set_ c ∩ list_to_set completed ⊆ set_ c ∩ list_to_set completed')
      as Hsub.
    { apply intersection_mono_l, (set_subseteq_lists _ _ Hcompleted). }
    apply subseteq_size in Hsub. lia.
  - rewrite !PrerequisitesFulfilledCondition_check_true.
    intros Hall u Hu. by apply Hcompleted, Hall.
  - rewrite !CorequisitesFulfilledCondition_check_true.
    intros Hall u Hu. destruct (Hall u Hu) as [?|?].
    + left. by apply Hcompleted.
    + right. by apply Henrolled.
  - rewrite !MutualExclusiveUnitsCondition_check_true.
    intros (u & Hu & [?|?]); exists u; (split; [done|]).
    + left. by apply Hcompleted.
    + right. by apply Henrolled.
Qed.

Lemma is_fulfilled_reiterable_true self units crs sq wam :
  reiterable units →
  (is_fulfilled self units crs sq wam).1 = true
  ↔ ∀ condition, condition ∈ conditions self →
      check condition (contents_info units crs sq wam) = true.
Proof.
  intros Hcollections.
  rewrite (is_fulfilled_reiterable _ _ _ _ _ Hcollections). simpl.
  rewrite all_true, Forall_forall. split.
  - intros Hall c Hc. apply Hall, list_elem_of_In, in_map_iff.
    exists c. split; [done|]. by apply list_elem_of_In.
  - intros Hall b Hb.
    apply list_elem_of_In, in_map_iff in Hb as (c & <- & Hc).
    by apply Hall, list_elem_of_In.
Qed.

(** What a call sees of the units, and what it leaves of them, is within
    what the arguments held. *)
Lemma call_check_seen condition units crs sq wam :
  ∃ completed enrolled,
    completed ⊆ contents (completed_object units)
    ∧ enrolled ⊆ contents (enrolled_object units)
    ∧ (call_check condition units crs sq wam).1
      = check condition (Build_EnrollmentInfo completed enrolled crs sq wam).
Proof.
  destruct condition as [c|c|c|c|c|c|c];
    destruct units as [[a|a] [b|b]|[a|a]]; simpl;
    first
      [ by exists a, b
      | by exists a, a
      | exists a, []; split; [done|]; split;
          [apply list_subseteq_nil|done] ].
Qed.

Lemma call_check_left condition units crs sq wam :
  contents (completed_object (call_check condition units crs sq wam).2)
    ⊆ contents (completed_object units)
  ∧ contents (enrolled_object (call_check condition units crs sq wam).2)
      ⊆ contents (enrolled_object units).
Proof.
  destruct condition as [c|c|c|c|c|c|c];
    destruct units as [[a|a] [b|b]|[a|a]]; simpl;
    split; first [done | apply list_subseteq_nil].
Qed.

Lemma checks_true_seen (cs : list (@Condition Unit _ _ Course Sequence))
    units crs sq wam :
  Py.all (checks cs units crs sq wam).1 = true →
  ∀ condition, condition ∈ cs →
    ∃ completed enrolled,
      completed ⊆ contents (completed_object units)
      ∧ enrolled ⊆ contents (enrolled_object units)
      ∧ check condition (Build_EnrollmentInfo completed enrolled crs sq wam)
        = true.
Proof.
  revert units. induction cs as [|c cs IH]; intros units Hall condition Hin.
  - by apply not_elem_of_nil in Hin.
  - simpl in Hall.
    pose proof (call_check_seen c units crs sq wam) as Hseen.
    pose proof (call_check_left c units crs sq wam) as [Hleft1 Hleft2].
    destruct (call_check c units crs sq wam) as [answer units1].
    specialize (IH units1).
    destruct (checks cs units1 crs sq wam) as [answers units2].
    simpl in *. destruct answer; [|done].
    apply elem_of_cons in Hin as [->|Hin].
    + destruct Hseen as (completed & enrolled & ? & ? & Hanswer).
      exists completed, enrolled. by rewrite <- Hanswer.
    + destruct (IH Hall condition Hin)
        as (completed & enrolled & Hcompleted & Henrolled & Hanswer).
      exists completed, enrolled. split; [|split; [|done]].
      * by transitivity (contents (completed_object units1)).
      * by transitivity (contents (enrolled_object units1)).
Qed.

Lemma is_fulfilled_true_seen self units crs sq wam :
  (is_fulfilled self units crs sq wam).1 = true →
  ∀ condition, condition ∈ conditions self →
    ∃ completed enrolled,
      completed ⊆ contents (completed_object units)
      ∧ enrolled ⊆ contents (enrolled_object units)
      ∧ check condition (Build_EnrollmentInfo completed enrolled crs sq wam)
        = true.
Proof.
  unfold is_fulfilled. intros Htrue. apply checks_true_seen.
  by destruct (checks (conditions self) units crs sq wam).
Qed.

Lemma all_app (xs ys : list bool) :
  Py.all (xs ++ ys) = Py.all xs && Py.all ys.
Proof. induction xs as [|[] xs IH]; simpl; auto. Qed.

Lemma checks_app (cs1 cs2 : list (@Condition Unit _ _ Course Sequence))
    units crs sq wam :
  checks (cs1 ++ cs2) units crs sq wam
  = ((checks cs1 units crs sq wam).1
       ++ (checks cs2 (checks cs1 units crs sq wam).2 crs sq wam).1,
     (checks cs2 (checks cs1 units crs sq wam).2 crs sq wam).2).
Proof.
  revert units. induction cs1 as [|c cs1 IH]; intros units; simpl.
  - by destruct (checks cs2 units crs sq wam).
  - destruct (call_check c units crs sq wam) as [answer units1].
    rewrite IH. by destruct (checks cs1 units1 crs sq wam).
Qed.

(** X6. On collections, fulfilment never goes away with more units: a
    constraint fulfilled by a student stays fulfilled when units are added
    to the completed or to the enrolled ones, the course, sequence and WAM
    being the same. *)
Theorem more_units_keep_constraint_fulfilled self units units' crs sq wam :
  reiterable units → reiterable units' →
  contents (completed_object units) ⊆ contents (completed_object units') →
  contents (enrolled_object units) ⊆ contents (enrolled_object units') →
  (is_fulfilled self units crs sq wam).1 = true →
  (is_fulfilled self units' crs sq wam).1 = true.
Proof.
  intros Hcollections Hcollections' Hcompleted Henrolled.
  rewrite !is_fulfilled_reiterable_true by done.
  intros Hall condition Hin.
  by apply (check_more_units _ _ _ _ _ _ _ _ Hcompleted Henrolled), Hall.
Qed.

(** X7. On collections, only which units the two arguments hold matters,
    not their order nor how often a unit occurs: arguments whose completed
    units, and whose enrolled units, have the same elements get the same
    answer. *)
Theorem units_order_and_repetition_irrelevant self units units' crs sq wam :
  reiterable units → reiterable units' →
  (∀ u, u ∈ contents (completed_object units)
        ↔ u ∈ contents (completed_object units')) →
  (∀ u, u ∈ contents (enrolled_object units)
        ↔ u ∈ contents (enrolled_object units')) →
  (is_fulfilled self units crs sq wam).1
  = (is_fulfilled self units' crs sq wam).1.
Proof.
  intros Hcollections Hcollections' Hcompleted Henrolled.
  apply eq_true_iff_eq.
  rewrite !is_fulfilled_reiterable_true by done.
  apply forall_proper. intros condition.
  split; intros Hcheck Hin.
  - apply (check_more_units _ (contents (completed_object units)) _
             (contents (enrolled_object units))), Hcheck, Hin;
      intros u; [apply Hcompleted|apply Henrolled].
  - apply (check_more_units _ (contents (completed_object units')) _
             (contents (enrolled_object units'))), Hcheck, Hin;
      intros u; [apply Hcompleted|apply Henrolled].
Qed.

(** X8. What a [MutualExclusiveUnitsCondition] does to the constraint that
    holds it: the constraint can only be fulfilled by a student who has
    completed, or is enrolled in, one of the incompatible units. *)
Theorem exclusion_in_constraint_requires_incompatible_unit
    self (X : list Unit) (x : MutualExclusiveUnitsCondition)
    units crs sq wam :
  MutualExclusiveUnitsCondition_init X = Some x →
  MutualExclusiveUnits x ∈ conditions self →
  (is_fulfilled self units crs sq wam).1 = true →
  incompatible_present X
    (contents (completed_object units)) (contents (enrolled_object units)).
Proof.
  intros [= <-] Hin Hfulfilled.
  destruct (is_fulfilled_true_seen _ _ _ _ _ Hfulfilled _ Hin)
    as (completed & enrolled & Hcompleted & Henrolled & Hanswer).
  simpl in Hanswer.
  apply MutualExclusiveUnitsCondition_check_true in Hanswer
    as (u & Hu & Hpresent).
  exists u. split; [by apply elem_of_set in Hu|].
  destruct Hpresent as [?|?]; [left; by apply Hcompleted|].
  right. by apply Henrolled.
Qed.

(** X9. A [MutualExclusiveUnitsCondition] over no unit at all is false on
    every context, so a constraint that holds one is never fulfilled. *)
Theorem empty_exclusion_blocks_constraint
    self (x : MutualExclusiveUnitsCondition) units crs sq wam :
  MutualExclusiveUnitsCondition_init [] = Some x →
  MutualExclusiveUnits x ∈ conditions self →
  (is_fulfilled self units crs sq wam).1 = false.
Proof.
  intros [= <-] Hin. apply not_true_is_false. intros Hfulfilled.
  destruct (is_fulfilled_true_seen _ _ _ _ _ Hfulfilled _ Hin)
    as (completed & enrolled & _ & _ & Hanswer).
  simpl in Hanswer.
  apply MutualExclusiveUnitsCondition_check_true in Hanswer
    as (u & Hu & _).
  simpl in Hu. apply elem_of_set in Hu. by apply not_elem_of_nil in Hu.
Qed.

(** X10. A constraint that asks for two different courses, or for two
    different sequences, is fulfilled by no student. *)
Theorem two_courses_or_sequences_never_fulfilled self units crs sq wam :
  (∀ c1 c2 : EnrolledInCourseCondition,
     EnrolledInCourse c1 ∈ conditions self →
     EnrolledInCourse c2 ∈ conditions self →
     course c1 ≠ course c2 →
     (is_fulfilled self units crs sq wam).1 = false)
  ∧ (∀ s1 s2 : EnrolledInSequenceCondition,
       EnrolledInSequence s1 ∈ conditions self →
       EnrolledInSequence s2 ∈ conditions self →
       sequence s1 ≠ sequence s2 →
       (is_fulfilled self units crs sq wam).1 = false).
Proof.
  split.
  - intros c1 c2 Hin1 Hin2 Hne. apply not_true_is_false. intros Htrue.
    destruct (is_fulfilled_true_seen _ _ _ _ _ Htrue _ Hin1)
      as (? & ? & _ & _ & H1).
    destruct (is_fulfilled_true_seen _ _ _ _ _ Htrue _ Hin2)
      as (? & ? & _ & _ & H2).
    simpl in H1, H2. unfold EnrolledInCourseCondition_check in H1, H2.
    apply bool_decide_eq_true in H1, H2. congruence.
  - intros s1 s2 Hin1 Hin2 Hne. apply not_true_is_false. intros Htrue.
    destruct (is_fulfilled_true_seen _ _ _ _ _ Htrue _ Hin1)
      as (? & ? & _ & _ & H1).
    destruct (is_fulfilled_true_seen _ _ _ _ _ Htrue _ Hin2)
      as (? & ? & _ & _ & H2).
    simpl in H1, H2. unfold EnrolledInSequenceCondition_check in H1, H2.
    apply bool_decide_eq_true in H1, H2. congruence.
Qed.

(** X11. Joining the conditions of two constraints: the joined constraint
    is fulfilled exactly when the first is, and the second is on the
    arguments as the first leaves them. On collections, which a call leaves
    as they are, this is the conjunction of the two constraints. *)
Theorem joined_constraints_are_conjoined self other units crs sq wam :
  (is_fulfilled {| conditions := conditions self ++ conditions other |}
     units crs sq wam).1
  = (is_fulfilled self units crs sq wam).1
    && (is_fulfilled other (is_fulfilled self units crs sq wam).2
          crs sq wam).1
  ∧ (reiterable units →
     (is_fulfilled {| conditions := conditions self ++ conditions other |}
        units crs sq wam).1
     = (is_fulfilled self units crs sq wam).1
       && (is_fulfilled other units crs sq wam).1).
Proof.
  assert ((is_fulfilled {| conditions := conditions self ++ conditions other |}
             units crs sq wam).1
          = (is_fulfilled self units crs sq wam).1
            && (is_fulfilled other (is_fulfilled self units crs sq wam).2
                  crs sq wam).1) as Hjoined.
  { unfold is_fulfilled. simpl. rewrite checks_app.
    destruct (checks (conditions self) units crs sq wam)
      as [answers units1]. simpl.
    destruct (checks (conditions other) units1 crs sq wam)
      as [answers' units2]. simpl.
    apply all_app. }
  split; [exact Hjoined|].
  intros Hcollections. rewrite Hjoined.
  by rewrite (is_fulfilled_reiterable self _ _ _ _ Hcollections).
Qed.

Lemma is_fulfilled_answer self units crs sq wam :
  (is_fulfilled self units crs sq wam).1
  = Py.all (checks (conditions self) units crs sq wam).1.
Proof.
  unfold is_fulfilled.
  by destruct (checks (conditions self) units crs sq wam).
Qed.

Lemma checks_false_app (cs1 cs2 : list (@Condition Unit _ _ Course Sequence))
    units crs sq wam :
  Py.all (checks cs2 (checks cs1 units crs sq wam).2 crs sq wam).1 = false →
  Py.all (checks (cs1 ++ cs2) units crs sq wam).1 = false.
Proof.
  intros Hfalse. rewrite checks_app. cbn [fst]. rewrite all_app, Hfalse.
  apply andb_false_r.
Qed.

Lemma checks_false_later condition
    (cs : list (@Condition Unit _ _ Course Sequence)) units crs sq wam :
  Py.all (checks cs (call_check condition units crs sq wam).2 crs sq wam).1
  = false →
  Py.all (checks (condition :: cs) units crs sq wam).1 = false.
Proof.
  simpl. destruct (call_check condition units crs sq wam) as [answer units1].
  cbn [snd]. destruct (checks cs units1 crs sq wam) as [answers units2].
  cbn [fst]. intros Hfalse. simpl. rewrite Hfalse. by destruct answer.
Qed.

Lemma checks_false_here condition
    (cs : list (@Condition Unit _ _ Course Sequence)) units crs sq wam :
  (call_check condition units crs sq wam).1 = false →
  Py.all (checks (condition :: cs) units crs sq wam).1 = false.
Proof.
  simpl. destruct (call_check condition units crs sq wam) as [answer units1].
  cbn [fst]. intros ->. by destruct (checks cs units1 crs sq wam).
Qed.

(** An iterator stays an iterator, an exhausted one stays exhausted, and a
    call that reads [units_completed] exhausts it. *)
Lemma call_check_iterator condition units (l : list Unit) crs sq wam :
  completed_object units = Iterator l →
  ∃ l', completed_object (call_check condition units crs sq wam).2
        = Iterator l'
        ∧ (l = [] → l' = [])
        ∧ (k_units_completed ∈ signature condition → l' = []).
Proof.
  intros Hl.
  destruct condition as [c|c|c|c|c|c|c];
    destruct units as [[a|a] [b|b]|[a|a]]; simpl in *;
    try discriminate; injection Hl as <-;
    eexists; (split; [reflexivity|]); (split; [done|]);
    rewrite ?list_elem_of_singleton; try done; discriminate.
Qed.

Lemma checks_iterator (cs : list (@Condition Unit _ _ Course Sequence))
    units (l : list Unit) crs sq wam :
  completed_object units = Iterator l →
  ∃ l', completed_object (checks cs units crs sq wam).2 = Iterator l'
        ∧ (l = [] → l' = []).
Proof.
  revert units l. induction cs as [|c cs IH]; intros units l Hl; simpl.
  - by exists l.
  - destruct (call_check_iterator c units l crs sq wam Hl)
      as (l1 & Hl1 & Hempty1 & _).
    destruct (call_check c units crs sq wam) as [answer units1].
    cbn [snd] in Hl1. destruct (IH units1 l1 Hl1) as (l' & Hl' & Hempty').
    destruct (checks cs units1 crs sq wam) as [answers units2].
    exists l'. split; [done|]. intros ?. by apply Hempty', Hempty1.
Qed.

Lemma prerequisites_on_exhausted_iterator
    (p : PrerequisitesFulfilledCondition) units crs sq wam :
  completed_object units = Iterator [] →
  prerequisites p ≠ ∅ →
  (call_check (PrerequisitesFulfilled p) units crs sq wam).1 = false.
Proof.
  intros Hexhausted Hprerequisites. apply not_true_is_false.
  destruct units as [[a|a] [b|b]|[a|a]]; simpl in *;
    try discriminate; injection Hexhausted as ->;
    rewrite PrerequisitesFulfilledCondition_check_true;
    intros Hall; apply Hprerequisites, set_eq; intros u;
    (split; [intros Hu; by apply Hall, not_elem_of_nil in Hu|]);
    intros Hu; by apply not_elem_of_empty in Hu.
Qed.

(** X19. An iterator passed as [units_completed] serves the first
    condition that reads it and no other: when a condition that takes
    [units_completed] stands, anywhere in the list, in front of a
    [PrerequisitesFulfilledCondition] with at least one prerequisite, the
    constraint is not fulfilled, whatever the iterator held. *)
Theorem iterator_serves_first_reader_only
    self (pre mid post : list (@Condition Unit _ _ Course Sequence))
    condition (p : PrerequisitesFulfilledCondition)
    units (remaining : list Unit) crs sq wam :
  conditions self
  = pre ++ condition :: mid ++ PrerequisitesFulfilled p :: post →
  k_units_completed ∈ signature condition →
  completed_object units = Iterator remaining →
  prerequisites p ≠ ∅ →
  (is_fulfilled self units crs sq wam).1 = false.
Proof.
  intros Hconditions Hreads Hiterator Hprerequisites.
  rewrite is_fulfilled_answer, Hconditions.
  apply checks_false_app.
  destruct (checks_iterator pre units remaining crs sq wam Hiterator)
    as (l1 & Hl1 & _).
  apply checks_false_later.
  destruct (call_check_iterator condition _ l1 crs sq wam Hl1)
    as (l2 & Hl2 & _ & Hexhausted).
  rewrite (Hexhausted Hreads) in Hl2.
  apply checks_false_app.
  destruct (checks_iterator mid _ [] crs sq wam Hl2) as (l3 & Hl3 & Hempty3).
  rewrite (Hempty3 eq_refl) in Hl3.
  apply checks_false_here.
  by apply prerequisites_on_exhausted_iterator.
Qed.

End MoreConstraintFacts.

(** ** The base class in a constraint *)

Section BaseClassFacts.
Context {Unit : Type} `{Countable Unit}.
Context {Course : Type} `{EqDecision Course}.
Context {Sequence : Type} `{EqDecision Sequence}.

Implicit Types (objects : list (@ConditionObject Unit _ _ Course Sequence)).
Implicit Types (units : @UnitArguments Unit).
Implicit Types (crs : Course) (sq : Sequence) (wam : float).

Lemma comprehension_base objects units crs sq wam :
  BaseCondition ∈ objects →
  (comprehension objects units crs sq wam).1
  = inl (NotImplementedError "Subclasses should implement this").
Proof.
  revert units. induction objects as [|[|c] rest IH]; intros units Hin.
  - by apply not_elem_of_nil in Hin.
  - reflexivity.
  - apply elem_of_cons in Hin as [?|Hin]; [done|].
    simpl. destruct (call_check c units crs sq wam) as [answer units1].
    specialize (IH units1 Hin).
    destruct (comprehension rest units1 crs sq wam) as [[e|answers] units2];
      simpl in *; congruence.
Qed.

Lemma comprehension_no_base objects units crs sq wam :
  BaseCondition ∉ objects →
  ∃ answers, (comprehension objects units crs sq wam).1 = inr answers.
Proof.
  revert units. induction objects as [|[|c] rest IH]; intros units Hnot.
  - by eexists.
  - exfalso. apply Hnot, list_elem_of_here.
  - simpl. destruct (call_check c units crs sq wam) as [answer units1].
    destruct (IH units1) as [answers Hrest].
    { intros Hin. by apply Hnot, list_elem_of_further. }
    destruct (comprehension rest units1 crs sq wam) as [[e|answers'] units2];
      simpl in *; [done|]. by eexists.
Qed.

Lemma comprehension_subclasses
    (cs : list (@Condition Unit _ _ Course Sequence)) units crs sq wam :
  comprehension (map Subclass cs) units crs sq wam
  = (inr (checks cs units crs sq wam).1, (checks cs units crs sq wam).2).
Proof.
  revert units. induction cs as [|c cs IH]; intros units; simpl; [done|].
  destruct (call_check c units crs sq wam) as [answer units1].
  rewrite IH. by destruct (checks cs units1 crs sq wam).
Qed.

(** X12. [is_fulfilled] raises [NotImplementedError] exactly when the
    constraint holds an instance of the base class, wherever it stands in
    the list: the comprehension runs every check before [all] looks at the
    answers, so a condition that is already false in front of it does not
    prevent the exception. Without such an instance it returns a
    boolean. *)
Theorem base_condition_makes_is_fulfilled_raise objects units crs sq wam :
  (BaseCondition ∈ objects
   ↔ (is_fulfilled_objects objects units crs sq wam).1
     = inl (NotImplementedError "Subclasses should implement this"))
  ∧ (BaseCondition ∉ objects
     ↔ ∃ answer, (is_fulfilled_objects objects units crs sq wam).1
                 = inr answer)
  ∧ (∀ condition,
       (call_check condition units crs sq wam).1 = false →
       (is_fulfilled_objects [Subclass condition; BaseCondition]
          units crs sq wam).1
       = inl (NotImplementedError "Subclasses should implement this")).
Proof.
  assert (BaseCondition ∈ objects ∨ BaseCondition ∉ objects) as Hcases.
  { induction objects as [|[|c] rest IH].
    - right. apply not_elem_of_nil.
    - left. apply list_elem_of_here.
    - destruct IH as [Hin|Hnot].
      + left. by apply list_elem_of_further.
      + right. intros Hin. apply elem_of_cons in Hin as [?|?]; done. }
  assert (∀ objects0 units0,
            BaseCondition ∈ objects0 →
            (is_fulfilled_objects objects0 units0 crs sq wam).1
            = inl (NotImplementedError "Subclasses should implement this"))
    as Hraises.
  { intros objects0 units0 Hin. unfold is_fulfilled_objects.
    pose proof (comprehension_base _ units0 crs sq wam Hin) as Hbase.
    destruct (comprehension objects0 units0 crs sq wam)
      as [[e|answers] units1]; simpl in *; congruence. }
  assert (BaseCondition ∉ objects →
          ∃ answer, (is_fulfilled_objects objects units crs sq wam).1
                    = inr answer) as Hreturns.
  { intros Hnot. unfold is_fulfilled_objects.
    destruct (comprehension_no_base _ units crs sq wam Hnot)
      as [answers Hanswers].
    destruct (comprehension objects units crs sq wam)
      as [[e|answers'] units1]; simpl in *; [done|]. by eexists. }
  split; [|split].
  - split; [apply Hraises|].
    intros Hraise. destruct Hcases as [?|Hnot]; [done|].
    destruct (Hreturns Hnot) as [answer Hanswer]. congruence.
  - split; [apply Hreturns|].
    intros [answer Hanswer] Hin. rewrite (Hraises _ _ Hin) in Hanswer.
    discriminate.
  - intros condition _. apply Hraises.
    apply list_elem_of_further, list_elem_of_here.
Qed.

(** X13. A constraint whose conditions are all instances of the seven
    subclasses never raises: [is_fulfilled] returns, and what it returns is
    the conjunction computed by the model without exceptions. *)
Theorem subclass_conditions_never_raise
    (self : @Constraint Unit _ _ Course Sequence) units crs sq wam :
  is_fulfilled_objects (map Subclass (conditions self)) units crs sq wam
  = (inr (is_fulfilled self units crs sq wam).1,
     (is_fulfilled self units crs sq wam).2).
Proof.
  unfold is_fulfilled_objects, is_fulfilled.
  rewrite comprehension_subclasses.
  by destruct (checks (conditions self) units crs sq wam).
Qed.

End BaseClassFacts.

(** ** The WAM threshold and the order of the floats *)

Section WamFacts.
Import SpecFloat.

Lemma SFeqb_irreflexive_nan x : SFeqb x x = false → x = S754_nan.
Proof.
  unfold SFeqb. destruct x as [s|s| |s m e]; simpl; try done.
  - destruct s; discriminate.
  - fold (Pos.compare m m).
    destruct s; rewrite Z.compare_refl, Pos.compare_refl; discriminate.
Qed.

Lemma SFleb_transitive x y z :
  SFleb x y = true → SFleb y z = true → SFleb x z = true.
Proof.
  unfold SFleb.
  destruct x as [sx|sx| |sx mx ex], y as [sy|sy| |sy my ey],
           z as [sz|sz| |sz mz ez];
    simpl; try discriminate; try reflexivity;
    try (destruct sx; simpl; try discriminate; try reflexivity);
    try (destruct sy; simpl; try discriminate; try reflexivity);
    try (destruct sz; simpl; try discriminate; try reflexivity).
  all: fold (Pos.compare mx my); fold (Pos.compare my mz);
    fold (Pos.compare mx mz).
  all: destruct (Z.compare_spec ex ey), (Z.compare_spec ey ez),
         (Z.compare_spec ex ez);
    simpl; try discriminate; try reflexivity; try lia.
  all: destruct (Pos.compare_spec mx my), (Pos.compare_spec my mz),
         (Pos.compare_spec mx mz);
    simpl; try discriminate; try reflexivity; try lia.
Qed.

Lemma is_nan_Prim2SF (f : float) : is_nan f = true → Prim2SF f = S754_nan.
Proof.
  unfold is_nan. rewrite negb_true_iff, FloatAxioms.eqb_spec.
  apply SFeqb_irreflexive_nan.
Qed.

Lemma float_ge_nan (a b : float) :
  is_nan a = true ∨ is_nan b = true → Py.float_ge a b = false.
Proof.
  unfold Py.float_ge. rewrite FloatAxioms.leb_spec. unfold SFleb.
  intros [Ha|Hb].
  - rewrite (is_nan_Prim2SF _ Ha). by destruct (Prim2SF b).
  - by rewrite (is_nan_Prim2SF _ Hb).
Qed.

Lemma float_ge_transitive (a b c : float) :
  Py.float_ge a b = true → Py.float_ge b c = true → Py.float_ge a c = true.
Proof.
  unfold Py.float_ge. rewrite !FloatAxioms.leb_spec.
  intros Hab Hbc. by apply (SFleb_transitive _ (Prim2SF b)).
Qed.

Context {Unit : Type} `{Countable Unit}.
Context {Course : Type} `{EqDecision Course}.
Context {Sequence : Type} `{EqDecision Sequence}.

Implicit Types (info : @EnrollmentInfo Unit Course Sequence).

(** X14. A WAM that is not a number meets no threshold, and a threshold
    that is not a number is met by no WAM: in both cases
    [MinimumWamCondition.check] is false. *)
Theorem nan_wam_never_fulfilled (c : MinimumWamCondition) info :
  is_nan (current_wam info) = true ∨ is_nan (minimum_wam c) = true →
  check (MinimumWam (Unit:=Unit) (Course:=Course) (Sequence:=Sequence) c)
    info = false.
Proof. intros Hnan. simpl. by apply float_ge_nan. Qed.

(** X15. A student who meets a WAM threshold meets every lower one, and so
    does every student whose WAM is at least as high. *)
Theorem lower_threshold_or_higher_wam_still_met
    (c c' : MinimumWamCondition) info info' :
  Py.float_ge (minimum_wam c) (minimum_wam c') = true →
  Py.float_ge (current_wam info') (current_wam info) = true →
  check (MinimumWam (Unit:=Unit) (Course:=Course) (Sequence:=Sequence) c)
    info = true →
  check (MinimumWam (Unit:=Unit) (Course:=Course) (Sequence:=Sequence) c')
    info' = true.
Proof.
  simpl. unfold MinimumWamCondition_check. intros Hthreshold Hwam Hmet.
  apply (float_ge_transitive _ (current_wam info)); [done|].
  by apply (float_ge_transitive _ (minimum_wam c)).
Qed.

End WamFacts.

(** ** The further properties at the catalogue of the examples *)

(** A student enrolled in [B], who has not completed it, does not fulfil
    the prerequisites [A] and [B]. *)
Lemma prerequisites_need_completion_witness :
  (λ c, check (PrerequisitesFulfilled c)
          (Example.context [Example.A] [Example.B]))
    <$> PrerequisitesFulfilledCondition_init [Example.A; Example.B]
  = Some false.
Proof.
  apply (proj1 (proj2 prerequisites_need_completion) Example.B).
  - apply list_elem_of_further, list_elem_of_here.
  - simpl. intros Hin. apply list_elem_of_singleton in Hin. discriminate.
Defined.

(** Who completed [A] fulfils the corequisite [A] as well. *)
Lemma prerequisites_imply_corequisites_witness :
  check (CorequisitesFulfilled {| corequisites := Py.set [Example.A] |})
    (Example.context [Example.A] []) = true.
Proof.
  apply (proj1 (prerequisites_imply_corequisites [Example.A]
                  {| prerequisites := Py.set [Example.A] |}
                  {| corequisites := Py.set [Example.A] |}
                  (Example.context [Example.A] [])
                  eq_refl eq_refl)).
  reflexivity.
Defined.

(** Two units out of the list [[A; A]], which holds one, cannot be had. *)
Lemma minimum_above_reference_never_fulfilled_witness :
  check (MinimumNumberOfUnits
           {| set_ := Py.set [Example.A; Example.A]; min_ := 2 |})
    (Example.context [Example.A; Example.B] []) = false.
Proof.
  apply (minimum_above_reference_never_fulfilled
           [Example.A; Example.A] 2 _ _ eq_refl).
  vm_compute. reflexivity.
Defined.

(** The prerequisite [A] stays fulfilled after [B] is completed and [C]
    taken up. *)
Lemma more_units_keep_constraint_fulfilled_witness :
  (is_fulfilled
     {| conditions :=
          [PrerequisitesFulfilled {| prerequisites := {[ Example.A ]} |}] |}
     (TwoObjects (Collection [Example.A; Example.B]) (Collection [Example.C]))
     "BSc" "CS" 70).1 = true.
Proof.
  apply (more_units_keep_constraint_fulfilled
           _ (TwoObjects (Collection [Example.A]) (Collection []))
           (TwoObjects (Collection [Example.A; Example.B])
                       (Collection [Example.C]))
           "BSc" "CS" 70 I I).
  - simpl. intros u Hu. apply list_elem_of_singleton in Hu as ->.
    apply list_elem_of_here.
  - simpl. apply list_subseteq_nil.
  - reflexivity.
Defined.

(** The lists [[A; B]] and [[B; A; A]] are the same completed units. *)
Lemma units_order_and_repetition_irrelevant_witness :
  (is_fulfilled
     {| conditions :=
          [MinimumNumberOfUnits
             {| set_ := {[ Example.A; Example.B ]}; min_ := 2 |}] |}
     (TwoObjects (Collection [Example.A; Example.B]) (Collection []))
     "BSc" "CS" 70).1
  = (is_fulfilled
       {| conditions :=
            [MinimumNumberOfUnits
               {| set_ := {[ Example.A; Example.B ]}; min_ := 2 |}] |}
       (TwoObjects (Collection [Example.B; Example.A; Example.A])
                   (Collection []))
       "BSc" "CS" 70).1.
Proof.
  apply (units_order_and_repetition_irrelevant
           _ (TwoObjects (Collection [Example.A; Example.B]) (Collection []))
           (TwoObjects (Collection [Example.B; Example.A; Example.A])
                       (Collection []))
           "BSc" "CS" 70 I I).
  - simpl. intros u. rewrite !elem_of_cons. tauto.
  - simpl. tauto.
Defined.

(** The constraint excluding [A] is fulfilled by a student who completed
    [A], handed over as an iterator, and [A] is the incompatible unit
    present. *)
Lemma exclusion_in_constraint_requires_incompatible_unit_witness :
  incompatible_present [Example.A] [Example.A] [].
Proof.
  apply (exclusion_in_constraint_requires_incompatible_unit
           {| conditions :=
                [MutualExclusiveUnits
                   {| incompatible_units := Py.set [Example.A] |}] |}
           [Example.A] _
           (TwoObjects (Iterator [Example.A]) (Collection []))
           "BSc" "CS" 70 eq_refl).
  - apply list_elem_of_here.
  - reflexivity.
Defined.

(** Nobody fulfils the constraint that excludes no unit. *)
Lemma empty_exclusion_blocks_constraint_witness :
  (is_fulfilled
     {| conditions :=
          [MutualExclusiveUnits {| incompatible_units := Py.set [] |}] |}
     (TwoObjects (Collection [Example.A]) (Iterator [Example.B]))
     "BSc" "CS" 70).1 = false.
Proof.
  apply (empty_exclusion_blocks_constraint _ _ _ _ _ _ eq_refl).
  apply list_elem_of_here.
Defined.

(** Nobody is enrolled in both ["BSc"] and ["BA"]. *)
Lemma two_courses_or_sequences_never_fulfilled_witness :
  (is_fulfilled
     {| conditions :=
          [EnrolledInCourse {| course := "BSc" |};
           EnrolledInCourse {| course := "BA" |}] |}
     (OneObject (Collection [Example.A])) "BSc" "CS" 70).1 = false.
Proof.
  apply (proj1 (two_courses_or_sequences_never_fulfilled _ _ _ _ _)
           {| course := "BSc" |} {| course := "BA" |}).
  - apply list_elem_of_here.
  - apply list_elem_of_further, list_elem_of_here.
  - discriminate.
Defined.

(** On the list [[A]], the prerequisite [A] joined with the threshold 65 is
    the conjunction of the two. *)
Lemma joined_constraints_are_conjoined_witness :
  (is_fulfilled
     {| conditions :=
          [PrerequisitesFulfilled {| prerequisites := {[ Example.A ]} |}]
          ++ [MinimumWam {| minimum_wam := 65 |}] |}
     (TwoObjects (Collection [Example.A]) (Collection [])) "BSc" "CS" 70).1
  = (is_fulfilled
       {| conditions :=
            [PrerequisitesFulfilled
               {| prerequisites := {[ Example.A ]} |}] |}
       (TwoObjects (Collection [Example.A]) (Collection []))
       "BSc" "CS" 70).1
    && (is_fulfilled
          {| conditions := [MinimumWam {| minimum_wam := 65 |}] |}
          (TwoObjects (Collection [Example.A]) (Collection []))
          "BSc" "CS" 70).1.
Proof.
  exact (proj2 (joined_constraints_are_conjoined
                  {| conditions :=
                       [PrerequisitesFulfilled
                          {| prerequisites := {[ Example.A ]} |}] |}
                  {| conditions := [MinimumWam {| minimum_wam := 65 |}] |}
                  (TwoObjects (Collection [Example.A]) (Collection []))
                  "BSc" "CS" 70) I).
Defined.

(** The unfulfilled prerequisite [A] in front of an instance of the base
    class does not keep [is_fulfilled] from raising. *)
Lemma base_condition_makes_is_fulfilled_raise_witness :
  (is_fulfilled_objects
     [Subclass
        (PrerequisitesFulfilled {| prerequisites := {[ Example.A ]} |});
      BaseCondition]
     (TwoObjects (Collection []) (Collection [])) "BSc" "CS" 70).1
  = inl (NotImplementedError "Subclasses should implement this").
Proof.
  apply (proj2 (proj2 (base_condition_makes_is_fulfilled_raise
                         [] (TwoObjects (Collection []) (Collection []))
                         "BSc" "CS" 70))).
  reflexivity.
Defined.

(** A student who completed [A] and hands the units over as an iterator:
    the minimum of one unit out of [A] takes them, and the prerequisite [A]
    two conditions later finds none. *)
Lemma iterator_serves_first_reader_only_witness :
  (is_fulfilled
     {| conditions :=
          [MinimumWam {| minimum_wam := 65 |};
           MinimumNumberOfUnits {| set_ := {[ Example.A ]}; min_ := 1 |};
           EnrolledInCourse {| course := "BSc" |};
           PrerequisitesFulfilled {| prerequisites := {[ Example.A ]} |}] |}
     (TwoObjects (Iterator [Example.A]) (Collection []))
     "BSc" "CS" 70).1 = false.
Proof.
  apply (iterator_serves_first_reader_only
           {| conditions :=
                [MinimumWam {| minimum_wam := 65 |};
                 MinimumNumberOfUnits
                   {| set_ := {[ Example.A ]}; min_ := 1 |};
                 EnrolledInCourse {| course := "BSc" |};
                 PrerequisitesFulfilled
                   {| prerequisites := {[ Example.A ]} |}] |}
           [MinimumWam {| minimum_wam := 65 |}]
           [EnrolledInCourse {| course := "BSc" |}] []
           (MinimumNumberOfUnits {| set_ := {[ Example.A ]}; min_ := 1 |})
           {| prerequisites := {[ Example.A ]} |}
           (TwoObjects (Iterator [Example.A]) (Collection []))
           [Example.A] "BSc" "CS" 70 eq_refl).
  - apply list_elem_of_here.
  - reflexivity.
  - apply non_empty_singleton_L.
Defined.

(** A threshold that is not a number is not met by a WAM of 70. *)
Lemma nan_wam_never_fulfilled_witness :
  check (MinimumWam {| minimum_wam := nan |}) (Example.context [] [])
  = false.
Proof.
  apply nan_wam_never_fulfilled. right. reflexivity.
Defined.

(** A WAM of 70 meets 65, so a WAM of 80.5 meets 50. *)
Lemma lower_threshold_or_higher_wam_still_met_witness :
  check (MinimumWam {| minimum_wam := 50 |})
    (Build_EnrollmentInfo [Example.A] [] "BSc" "CS" 80.5)
  = true.
Proof.
  apply (lower_threshold_or_higher_wam_still_met
           {| minimum_wam := 65 |} _ (Example.context [Example.A] []));
    reflexivity.
Defined.

(** ** How the set-valued conditions relate and compose *)

Section SetConditionFacts.
Context {Unit : Type} `{Countable Unit}.
Context {Course : Type} `{EqDecision Course}.
Context {Sequence : Type} `{EqDecision Sequence}.

Implicit Types (info : @EnrollmentInfo Unit Course Sequence).
Implicit Types (L R : list Unit).

(** X16. A [MinimumNumberOfUnitsCondition] that is fulfilled stays so when
    units are added to its reference list or its threshold is lowered. *)
Theorem wider_reference_or_lower_minimum_still_met
    R R' (k k' : Z) (m m' : MinimumNumberOfUnitsCondition) info :
  MinimumNumberOfUnitsCondition_init R k = Some m →
  MinimumNumberOfUnitsCondition_init R' k' = Some m' →
  R ⊆ R' → k' ≤ k →
  check (MinimumNumberOfUnits m) info = true →
  check (MinimumNumberOfUnits m') info = true.
Proof.
  intros [= <-] [= <-] HR Hk. simpl.
  rewrite !MinimumNumberOfUnitsCondition_check_true. simpl. intros Hmet.
  assert (Py.set R ∩ list_to_set (units_completed info)
          ⊆ Py.set R' ∩ list_to_set (units_completed info)) as Hsub.
  { apply intersection_mono_r. intros u. rewrite !elem_of_set. apply HR. }
  apply subseteq_size in Hsub. lia.
Qed.

(** X17. One condition over a joined list does what the conditions over
    the parts do together: prerequisites and corequisites over [L1 ++ L2]
    are the conjunction of those over [L1] and over [L2], and the exclusion
    over [L1 ++ L2] is the disjunction. *)
Theorem conditions_over_joined_lists L1 L2 info :
  (∃ p p1 p2,
     PrerequisitesFulfilledCondition_init (L1 ++ L2) = Some p
     ∧ PrerequisitesFulfilledCondition_init L1 = Some p1
     ∧ PrerequisitesFulfilledCondition_init L2 = Some p2
     ∧ check (PrerequisitesFulfilled p) info
       = check (PrerequisitesFulfilled p1) info
         && check (PrerequisitesFulfilled p2) info)
  ∧ (∃ c c1 c2,
       CorequisitesFulfilledCondition_init (L1 ++ L2) = Some c
       ∧ CorequisitesFulfilledCondition_init L1 = Some c1
       ∧ CorequisitesFulfilledCondition_init L2 = Some c2
       ∧ check (CorequisitesFulfilled c) info
         = check (CorequisitesFulfilled c1) info
           && check (CorequisitesFulfilled c2) info)
  ∧ (∃ x x1 x2,
       MutualExclusiveUnitsCondition_init (L1 ++ L2) = Some x
       ∧ MutualExclusiveUnitsCondition_init L1 = Some x1
       ∧ MutualExclusiveUnitsCondition_init L2 = Some x2
       ∧ check (MutualExclusiveUnits x) info
         = check (MutualExclusiveUnits x1) info
           || check (MutualExclusiveUnits x2) info).
Proof.
  split; [|split]; do 3 eexists; (do 3 (split; [reflexivity|])); simpl;
    apply eq_true_iff_eq.
  - rewrite andb_true_iff, !PrerequisitesFulfilledCondition_check_true.
    simpl. split.
    + intros Hall. split; intros u Hu; apply Hall;
        apply elem_of_set, elem_of_app; apply elem_of_set in Hu; tauto.
    + intros [H1 H2] u Hu.
      apply elem_of_set, elem_of_app in Hu as [Hu|Hu];
        [apply H1|apply H2]; by apply elem_of_set.
  - rewrite andb_true_iff, !CorequisitesFulfilledCondition_check_true.
    simpl. split.
    + intros Hall. split; intros u Hu; apply Hall;
        apply elem_of_set, elem_of_app; apply elem_of_set in Hu; tauto.
    + intros [H1 H2] u Hu.
      apply elem_of_set, elem_of_app in Hu as [Hu|Hu];
        [apply H1|apply H2]; by apply elem_of_set.
  - rewrite orb_true_iff, !MutualExclusiveUnitsCondition_check_true.
    simpl. split.
    + intros (u & Hu & Hpresent).
      apply elem_of_set, elem_of_app in Hu as [Hu|Hu]; [left|right];
        exists u; (split; [by apply elem_of_set|done]).
    + intros [(u & Hu & Hpresent)|(u & Hu & Hpresent)]; exists u;
        (split; [|done]); apply elem_of_set, elem_of_app;
        apply elem_of_set in Hu; tauto.
Qed.

(** X18. For a student with no enrolled unit,
    [MutualExclusiveUnitsCondition(R)] is the test for at least one
    completed unit of [R]: it answers as
    [MinimumNumberOfUnitsCondition(R, 1)]. *)
Theorem exclusion_is_minimum_of_one
    R (x : MutualExclusiveUnitsCondition)
    (m : MinimumNumberOfUnitsCondition) info :
  MutualExclusiveUnitsCondition_init R = Some x →
  MinimumNumberOfUnitsCondition_init R 1 = Some m →
  units_enrolled info = [] →
  check (MutualExclusiveUnits x) info = check (MinimumNumberOfUnits m) info.
Proof.
  intros [= <-] [= <-] Hnone. simpl. apply eq_true_iff_eq.
  rewrite MutualExclusiveUnitsCondition_check_true,
    MinimumNumberOfUnitsCondition_check_true. simpl. rewrite Hnone. split.
  - intros (u & Hu & [Hin|Hnil]); [|by apply not_elem_of_nil in Hnil].
    assert (u ∈ Py.set R ∩ list_to_set (units_completed info)) as Hboth.
    { apply elem_of_intersection. split; [done|].
      by apply elem_of_list_to_set. }
    assert ({[ u ]} ⊆ Py.set R ∩ list_to_set (units_completed info)) as Hsub.
    { by apply singleton_subseteq_l. }
    apply subseteq_size in Hsub. rewrite size_singleton in Hsub. lia.
  - intros Hsize.
    destruct (size_pos_elem_of
                (Py.set R ∩ list_to_set (units_completed info)))
      as [u Hu]; [lia|].
    apply elem_of_intersection in Hu as [HuR Hu].
    exists u. split; [done|]. left. by apply elem_of_list_to_set in Hu.
Qed.

End SetConditionFacts.

(** With [A] completed, one unit out of [[A; B; C]] is had at the threshold
    0 as it is at the threshold 1 out of [[A]]. *)
Lemma wider_reference_or_lower_minimum_still_met_witness :
  check (MinimumNumberOfUnits
           {| set_ := Py.set [Example.A; Example.B; Example.C]; min_ := 0 |})
    (Example.context [Example.A] []) = true.
Proof.
  apply (wider_reference_or_lower_minimum_still_met
           [Example.A] [Example.A; Example.B; Example.C] 1 0
           {| set_ := Py.set [Example.A]; min_ := 1 |} _
           (Example.context [Example.A] []) eq_refl eq_refl).
  - intros u Hu. apply list_elem_of_singleton in Hu as ->.
    apply list_elem_of_here.
  - lia.
  - reflexivity.
Defined.

(** With [B] completed and nothing enrolled, the exclusion of [[A; B]] and
    the minimum of one unit out of [[A; B]] agree. *)
Lemma exclusion_is_minimum_of_one_witness :
  check (MutualExclusiveUnits
           {| incompatible_units := Py.set [Example.A; Example.B] |})
    (Example.context [Example.B] [])
  = check (MinimumNumberOfUnits
             {| set_ := Py.set [Example.A; Example.B]; min_ := 1 |})
      (Example.context [Example.B] []).
Proof.
  apply (exclusion_is_minimum_of_one [Example.A; Example.B] _ _
           (Example.context [Example.B] []) eq_refl eq_refl).
  reflexivity.
Defined.
